(** * Projectile motion simulator: the physics engine and its GUI driver

    A shallow embedding of [src/main.py]: the class [ProjectilePhysics]
    (closed-form kinematics, the quadratic time solver, the hit test and the
    nearest-sample search) and the control flow of
    [ProjectileSimulator.on_simulate] that validates the form fields and
    dispatches on which target coordinates are present.

    Number model.  The main development reads Python's [float] as a real
    number: arithmetic is exact, comparisons are the order of [R].  What
    Python makes fail is kept as a failure: [math.sqrt] raises [ValueError]
    on a negative argument, [x ** 2] raises [OverflowError] when the square
    leaves the range of a double, [np.argmin] raises [ValueError] on an
    empty array, [float(text)] raises [ValueError] on text that is no
    number, and looking up a name a class does not define raises
    [AttributeError].  Rounding, infinities and NaN are outside the real
    model; statements over it are kept to what does not depend on them.

    Where the behaviour of the code does depend on rounding or on NaN, the
    module [Binary64] evaluates the same source expressions on IEEE 754
    doubles (Rocq's primitive floats), at explicit inputs. *)

From Corelib Require Import PrimFloat.
From Stdlib Require Import Reals Lra Lia List String Bool Arith Sorted.
Import ListNotations.
Open Scope R_scope.
Set Warnings "-inexact-float".

(** ** Exceptions and results *)

Inductive exn : Type :=
| ValueError
| TypeError
| OverflowError
| AttributeError (name : string).

Inductive result (A : Type) : Type :=
| Ok (a : A)
| Raise (e : exn).

Arguments Ok {A} a.
Arguments Raise {A} e.

Definition bind {A B : Type} (r : result A) (k : A -> result B) : result B :=
  match r with
  | Ok a => k a
  | Raise e => Raise e
  end.

Notation "x <- r ;; k" := (bind r (fun x => k))
  (at level 61, r at next level, right associativity).

(** ** Comparisons as Python evaluates them: to a [bool] *)

Definition Rltb (x y : R) : bool := if Rlt_dec x y then true else false.
Definition Rleb (x y : R) : bool := if Rle_dec x y then true else false.

(** ** The [math] and [numpy] functions the engine calls *)

(** [math.radians(d)] *)
Definition math_radians (d : R) : R := d * (PI / 180).

(** [math.sqrt(x)]: a [ValueError] (math domain error) below zero. *)
Definition math_sqrt (x : R) : result R :=
  if Rltb x 0 then Raise ValueError else Ok (sqrt x).

(** The least magnitude that rounds to infinity as a double: halfway
    between the largest double, [2^1024 - 2^971], and [2^1024]. *)
Definition DBL_OVERFLOW : R := IZR (2 ^ 1024 - 2 ^ 970).

(** [x ** 2] on a Python float: [OverflowError] when the square is out of
    range. *)
Definition py_pow2 (x : R) : result R :=
  if Rleb DBL_OVERFLOW (x ^ 2) then Raise OverflowError else Ok (x ^ 2).

(** [np.linspace(start, stop, num=num)] with the default [endpoint=True]:
    [start + i * step] with [step = (stop - start) / (num - 1)], and the last
    entry overwritten by [stop] when [num > 1]. *)
Definition np_linspace (start stop : R) (num : nat) : list R :=
  let step := (stop - start) / INR (num - 1) in
  map (fun i : nat =>
         if (Nat.eqb i (num - 1) && Nat.ltb 1 num)%bool then stop
         else start + INR i * step)
      (seq 0 num).

Arguments np_linspace : simpl never.

(** [np.argmin(a)]: the index of the first occurrence of the least entry;
    [ValueError] on an empty array.  [argmin_from best bv i l] scans [l],
    whose head has index [i], with [best] the index of the least value [bv]
    seen so far. *)
Fixpoint argmin_from (best : nat) (bv : R) (i : nat) (l : list R) : nat :=
  match l with
  | [] => best
  | v :: rest =>
      if Rltb v bv then argmin_from i v (S i) rest
      else argmin_from best bv (S i) rest
  end.

Definition np_argmin (a : list R) : result nat :=
  match a with
  | [] => Raise ValueError
  | v :: rest => Ok (argmin_from 0%nat v 1%nat rest)
  end.

(** ** [class ProjectilePhysics] *)

Definition GRAVITY : R := 9.81.

Record ProjectilePhysics : Type := mkProjectilePhysics {
  v0 : R;
  angle_deg : R;
  h0 : R;
  air_resistance : bool;
  vx : R;
  vy : R;
  t_flight : R;
  max_height : R;
  range : R;
  x_points : list R;
  y_points : list R
}.

(** The height of the projectile at time [t], the expression [calculate]
    evaluates on every sample time. *)
Definition height_at (h vy_ t : R) : R := h + vy_ * t - 0.5 * GRAVITY * t ^ 2.

(** [calculate]: the derived scalars and the 500 samples.  The steps that
    can raise are the two [self.vy**2] and [math.sqrt(discrim)]; on arrays
    numpy's [t**2] raises nothing. *)
Definition calculate (v0_ angle_deg_ h0_ : R) (air : bool)
  : result ProjectilePhysics :=
  let theta := math_radians angle_deg_ in
  let vx_ := v0_ * cos theta in
  let vy_ := v0_ * sin theta in
  vy_squared <- py_pow2 vy_ ;;
  let discrim := vy_squared + 2 * GRAVITY * h0_ in
  root <- math_sqrt discrim ;;
  let t_flight_ := (vy_ + root) / GRAVITY in
  vy_squared' <- py_pow2 vy_ ;;
  let max_height_ := h0_ + vy_squared' / (2 * GRAVITY) in
  let range_ := vx_ * t_flight_ in
  let t := np_linspace 0 t_flight_ 500 in
  Ok {| v0 := v0_; angle_deg := angle_deg_; h0 := h0_; air_resistance := air;
        vx := vx_; vy := vy_; t_flight := t_flight_;
        max_height := max_height_; range := range_;
        x_points := map (fun ti => vx_ * ti) t;
        y_points := map (fun ti => height_at h0_ vy_ ti) t |}.

(** [ProjectilePhysics(v0, angle_deg, h0)]: [__init__] stores its arguments
    and calls [calculate]; [air_resistance] defaults to [False]. *)
Definition ProjectilePhysics_init (v0_ angle_deg_ h0_ : R)
  : result ProjectilePhysics :=
  calculate v0_ angle_deg_ h0_ false.

(** The test of the loop in [get_times_for_y]:
    [t >= 0 and t <= self.t_flight]. *)
Definition in_flight (self : ProjectilePhysics) (t : R) : bool :=
  (Rleb 0 t && Rleb t (t_flight self))%bool.

(** The loop [for t in (t1, t2): if ...: times.append(t)]. *)
Fixpoint keep_in_flight (self : ProjectilePhysics) (candidates : list R)
  : list R :=
  match candidates with
  | [] => []
  | t :: rest =>
      if in_flight self t then t :: keep_in_flight self rest
      else keep_in_flight self rest
  end.

(** The discriminant [b**2 - 4*a*c] of [get_times_for_y].  [b] is
    [self.vy], whose square [calculate] has already taken without
    overflow on every object it built, so [b**2] is read as total here. *)
Definition disc_for_y (self : ProjectilePhysics) (y_target : R) : R :=
  let a := -0.5 * GRAVITY in
  let b := vy self in
  let c := h0 self - y_target in
  b ^ 2 - 4 * a * c.

Definition get_times_for_y (self : ProjectilePhysics) (y_target : R)
  : result (list R) :=
  let a := -0.5 * GRAVITY in
  let b := vy self in
  let disc := disc_for_y self y_target in
  if Rltb disc 0 then Ok []
  else
    s1 <- math_sqrt disc ;;
    let t1 := (- b + s1) / (2 * a) in
    s2 <- math_sqrt disc ;;
    let t2 := (- b - s2) / (2 * a) in
    Ok (keep_in_flight self [t1; t2]).

(** The detail record of a hit: [{"t": t, "actual_x": x, "actual_y": y}]. *)
Record details : Type := mkDetails {
  t : R;
  actual_x : R;
  actual_y : R
}.

(** The loop of [is_target_reachable] over the candidate times. *)
Fixpoint first_hit (self : ProjectilePhysics) (x_target y_target : R)
  (times : list R) : bool * option details :=
  match times with
  | [] => (false, None)
  | ti :: rest =>
      let x := vx self * ti in
      if Rltb (Rabs (x - x_target)) 1e-2
      then (true, Some {| t := ti; actual_x := x; actual_y := y_target |})
      else first_hit self x_target y_target rest
  end.

Definition is_target_reachable (self : ProjectilePhysics)
  (x_target y_target : R) : result (bool * option details) :=
  times <- get_times_for_y self y_target ;;
  Ok (first_hit self x_target y_target times).

(** [np.sqrt((x_points - x_target)**2 + (y_points - y_target)**2)],
    entry by entry. *)
Definition distances_to (self : ProjectilePhysics) (x_target y_target : R)
  : list R :=
  map (fun xy : R * R =>
         sqrt ((fst xy - x_target) ^ 2 + (snd xy - y_target) ^ 2))
      (combine (x_points self) (y_points self)).

(** [get_closest_point_to]: [(distance, point_x, point_y, t)].  The time is
    computed from the index, not read from the sample times. *)
Definition get_closest_point_to (self : ProjectilePhysics)
  (x_target y_target : R) : result (R * R * R * R) :=
  let distances := distances_to self x_target y_target in
  idx <- np_argmin distances ;;
  Ok (nth idx distances 0,
      nth idx (x_points self) 0,
      nth idx (y_points self) 0,
      INR idx * t_flight self / INR (List.length (x_points self) - 1)).

(** ** Attribute lookup on a [ProjectilePhysics] object *)

(** Every name the class body binds, followed by every name [__init__]
    binds on the instance. *)
Definition ProjectilePhysics_attributes : list string :=
  ["GRAVITY"; "__init__"; "calculate"; "get_times_for_y";
   "is_target_reachable"; "get_closest_point_to";
   "v0"; "angle_deg"; "h0"; "air_resistance"; "vx"; "vy"; "t_flight";
   "max_height"; "range"; "x_points"; "y_points"]%string.

(** What a method called with one float can hand back to [on_simulate]. *)
Inductive pyvalue : Type :=
| PyNone
| PyFloat (r : R)
| PyList (l : list R).

(** [self.physics.<name>(arg)]: the call of an attribute with one float.
    [get_times_for_y] is the only attribute that accepts it; any other
    attribute of the list above is either no callable or takes another
    number of arguments ([TypeError]); a name that is not bound at all
    raises [AttributeError].  (Names inherited from [object] are left out:
    [on_simulate] uses none.) *)
Definition call_method1 (self : ProjectilePhysics) (name : string) (arg : R)
  : result pyvalue :=
  if String.eqb name "get_times_for_y" then
    times <- get_times_for_y self arg ;; Ok (PyList times)
  else if existsb (String.eqb name) ProjectilePhysics_attributes then
    Raise TypeError
  else Raise (AttributeError name).

(** ** [ProjectileSimulator.on_simulate] *)

(** The text of a line edit, as [float()] sees it.  [Number] holds a real,
    that is, text for a finite number; the texts ['nan'] and ['inf'], which
    [float()] accepts as well, are numbers of [Binary64.field] only. *)
Inductive field : Type :=
| Blank
| NotANumber
| Number (r : R).

(** [float(text)] *)
Definition float_of (f : field) : result R :=
  match f with
  | Number r => Ok r
  | Blank | NotANumber => Raise ValueError
  end.

Record form : Type := mkForm {
  input_speed : field;
  input_angle : field;
  input_height : field;
  input_target_x : field;
  input_target_y : field
}.

(** The message shown in [lbl_target], before text formatting. *)
Inductive target_label : Type :=
| LabelNoTarget
| LabelHit (tx ty : R)
| LabelClosest (cx cy dist : R)
| LabelYAtX (tx y : R)
| LabelXOutOfRange (tx : R)
| LabelAtY (ty : R) (xs : list R)
| LabelYNotReached (ty : R).

(** The part of the window [on_simulate] reads and writes. *)
Record window : Type := mkWindow {
  physics : option ProjectilePhysics;
  target_x : option R;
  target_y : option R;
  lbl_target : target_label;
  lbl_info : option (R * R * R)
}.

(** How a call of [on_simulate] ends: a warning box and an early return,
    an exception that leaves the method, or the plot call with its [hit]
    and [closest] arguments. *)
Inductive outcome : Type :=
| Warning (title : string)
| Uncaught (e : exn)
| Plotted (hit : bool) (closest : option (R * R * R * R)).

(** The first [try] block: the three launch fields and their constraints. *)
Definition read_launch (f : form) : result (R * R * R) :=
  v <- float_of (input_speed f) ;;
  angle <- float_of (input_angle f) ;;
  h <- float_of (input_height f) ;;
  if (Rltb v 0 || Rltb angle 0 || Rltb 90 angle || Rltb h 0)%bool
  then Raise ValueError
  else Ok (v, angle, h).

(** [float(s) if s else None] *)
Definition optional_float (f : field) : result (option R) :=
  match f with
  | Blank => Ok None
  | _ => r <- float_of f ;; Ok (Some r)
  end.

Definition negative (o : option R) : bool :=
  match o with
  | Some r => Rltb r 0
  | None => false
  end.

(** The second [try] block: the two target fields. *)
Definition read_target (f : form) : result (option R * option R) :=
  tx <- optional_float (input_target_x f) ;;
  ty <- optional_float (input_target_y f) ;;
  if negative tx then Raise ValueError
  else if negative ty then Raise ValueError
  else Ok (tx, ty).

(** The four-way branch on the target, run on the freshly built object:
    the label to show with the [hit] and [closest] passed to the plot. *)
Definition query_target (p : ProjectilePhysics) (tx ty : option R)
  : result (target_label * bool * option (R * R * R * R)) :=
  match tx, ty with
  | Some x, Some y =>
      r <- is_target_reachable p x y ;;
      if fst r then Ok (LabelHit x y, true, None)
      else
        c <- get_closest_point_to p x y ;;
        let '(dist, cx, cy, _) := c in
        Ok (LabelClosest cx cy dist, false, Some c)
  | Some x, None =>
      y_at_x <- call_method1 p "get_y_at_x" x ;;
      match y_at_x with
      | PyNone => Ok (LabelXOutOfRange x, false, None)
      | PyFloat y => Ok (LabelYAtX x y, false, None)
      | PyList _ => Raise TypeError
      end
  | None, Some y =>
      times <- get_times_for_y p y ;;
      match times with
      | [] => Ok (LabelYNotReached y, false, None)
      | _ => Ok (LabelAtY y (map (fun ti => vx p * ti) times), false, None)
      end
  | None, None => Ok (LabelNoTarget, false, None)
  end.

Definition on_simulate (w : window) (f : form) : window * outcome :=
  match read_launch f with
  | Raise ValueError => (w, Warning "Invalid Input")
  | Raise e => (w, Uncaught e)
  | Ok (v, angle, h) =>
      let w1 := {| physics := physics w; target_x := None; target_y := None;
                   lbl_target := lbl_target w; lbl_info := lbl_info w |} in
      match read_target f with
      | Raise _ => (w1, Warning "Invalid Target")
      | Ok (tx, ty) =>
          let w2 := {| physics := physics w; target_x := tx; target_y := ty;
                       lbl_target := lbl_target w; lbl_info := lbl_info w |} in
          match ProjectilePhysics_init v angle h with
          | Raise e => (w2, Uncaught e)
          | Ok p =>
              let w3 := {| physics := Some p; target_x := tx; target_y := ty;
                           lbl_target := lbl_target w;
                           lbl_info := lbl_info w |} in
              match query_target p tx ty with
              | Raise e => (w3, Uncaught e)
              | Ok (label, hit, closest) =>
                  ({| physics := Some p; target_x := tx; target_y := ty;
                      lbl_target := label;
                      lbl_info := Some (t_flight p, max_height p, range p) |},
                   Plotted hit closest)
              end
          end
      end
  end.

(** ** [ProjectileSimulator.on_save_graph] *)

(** How a call of [on_save_graph] ends: the "Nothing to Save" box, a file
    dialog that came back with the empty name, or the plot written to the
    chosen file. *)
Inductive save_outcome : Type :=
| NothingToSave
| Cancelled
| SavedTo (filename : string).

(** [chosen] is the name the file dialog returns, empty when the user
    cancels.  [not self.physics] holds exactly when the attribute is still
    [None]: the class defines neither [__bool__] nor [__len__]. *)
Definition on_save_graph (w : window) (chosen : string) : save_outcome :=
  match physics w with
  | None => NothingToSave
  | Some _ =>
      if String.eqb chosen "" then Cancelled else SavedTo chosen
  end.

(** ** Vocabulary of the statements *)

(** The launch constraints of the form: speed and height not negative, the
    angle between 0 and 90 degrees. *)
Definition valid_launch (v a h : R) : Prop :=
  0 <= v /\ 0 <= a <= 90 /\ 0 <= h.

(** [discrim] of [calculate]. *)
Definition launch_discrim (v a h : R) : R :=
  (v * sin (math_radians a)) ^ 2 + 2 * GRAVITY * h.

(** What [calculate] stores, read back from a built object. *)
Record built (v a h : R) (p : ProjectilePhysics) : Prop := mkBuilt {
  built_no_overflow : (v * sin (math_radians a)) ^ 2 < DBL_OVERFLOW;
  built_discrim : 0 <= launch_discrim v a h;
  built_v0 : v0 p = v;
  built_angle : angle_deg p = a;
  built_h0 : h0 p = h;
  built_vx : vx p = v * cos (math_radians a);
  built_vy : vy p = v * sin (math_radians a);
  built_t_flight :
    t_flight p = (vy p + sqrt (vy p ^ 2 + 2 * GRAVITY * h)) / GRAVITY;
  built_max_height : max_height p = h + vy p ^ 2 / (2 * GRAVITY);
  built_range : range p = vx p * t_flight p;
  built_x_points :
    x_points p = map (fun ti => vx p * ti) (np_linspace 0 (t_flight p) 500);
  built_y_points :
    y_points p =
    map (fun ti => height_at h (vy p) ti) (np_linspace 0 (t_flight p) 500)
}.

(** The acceptance test of [is_target_reachable] at a candidate time:
    [abs(vx*t - x_target) < 1e-2]. *)
Definition accepts (self : ProjectilePhysics) (x_target ti : R) : Prop :=
  Rabs (vx self * ti - x_target) < 1e-2.

(** The detail record [is_target_reachable] builds at an accepted time. *)
Definition hit_details (self : ProjectilePhysics) (y_target ti : R)
  : details :=
  {| t := ti; actual_x := vx self * ti; actual_y := y_target |}.



(** The time of sample number [i] of [n] evenly spaced over a flight of
    duration [T]. *)
Definition sample_time (T : R) (n i : nat) : R := INR i * (T / INR (n - 1)).

(** The two candidate times of [get_times_for_y], in the order computed:
    [t1 = (-b + sqrt disc) / (2a)] and [t2 = (-b - sqrt disc) / (2a)] with
    [a = -g/2], written over the positive denominator [g]. *)
Definition root_first (self : ProjectilePhysics) (y_target : R) : R :=
  (vy self - sqrt (disc_for_y self y_target)) / GRAVITY.

Definition root_second (self : ProjectilePhysics) (y_target : R) : R :=
  (vy self + sqrt (disc_for_y self y_target)) / GRAVITY.

(** A launch field holds text that [float()] rejects. *)
Definition not_a_float (f : field) : Prop := f = Blank \/ f = NotANumber.

(** A target field holds text that [float()] rejects, or a negative
    number.  A blank target field is fine. *)
Definition bad_target (f : field) : Prop :=
  f = NotANumber \/ exists r, f = Number r /\ r < 0.

(** The window as [ProjectileSimulator.__init__] leaves it. *)
Definition initial_window : window :=
  {| physics := None; target_x := None; target_y := None;
     lbl_target := LabelNoTarget; lbl_info := None |}.

(** A form with the default launch (30 m/s at 45 degrees from the ground)
    and a target of which only X is filled in. *)
Definition x_only_form : form :=
  {| input_speed := Number 30; input_angle := Number 45;
     input_height := Number 0;
     input_target_x := Number 10; input_target_y := Blank |}.

(** The same launch with both target fields left blank. *)
Definition no_target_form : form :=
  {| input_speed := Number 30; input_angle := Number 45;
     input_height := Number 0;
     input_target_x := Blank; input_target_y := Blank |}.

(** The default launch with the target (10, -1). *)
Definition negative_target_form : form :=
  {| input_speed := Number 30; input_angle := Number 45;
     input_height := Number 0;
     input_target_x := Number 10; input_target_y := Number (-1) |}.

(** The default launch with the target (10, 5). *)
Definition both_target_form : form :=
  {| input_speed := Number 30; input_angle := Number 45;
     input_height := Number 0;
     input_target_x := Number 10; input_target_y := Number 5 |}.


(** The default form with the speed field emptied. *)
Definition no_speed_form : form :=
  {| input_speed := Blank; input_angle := Number 45;
     input_height := Number 0;
     input_target_x := Blank; input_target_y := Blank |}.

(** ** The engine on IEEE 754 doubles *)

(** The scalar and array expressions of [ProjectilePhysics] and the launch
    check of [on_simulate], evaluated as CPython evaluates them: every
    operation rounds to the nearest double, comparisons with NaN are false.
    The statements over this module are at explicit inputs and proved by
    evaluation. *)
Module Binary64.

#[local] Set Warnings "-inexact-float".
Local Open Scope float_scope.

Definition GRAVITY : float := 9.81.

Definition is_finite (x : float) : bool :=
  (negb (is_nan x) && negb (is_infinity x))%bool.

(** [x ** 2] on a Python float is C's [pow(x, 2.0)], read as the correctly
    rounded product: [OverflowError] when a finite [x] gives an infinite
    square; NaN and the infinities pass through. *)
Definition pow2 (x : float) : result float :=
  let r := x * x in
  if (is_infinity r && is_finite x)%bool then Raise OverflowError else Ok r.

(** [math.sqrt(x)]: [ValueError] below zero; NaN gives NaN. *)
Definition math_sqrt (x : float) : result float :=
  if x <? 0 then Raise ValueError else Ok (PrimFloat.sqrt x).

(** An array index as a double (exact below 2^53). *)
Fixpoint float_of_nat (n : nat) : float :=
  match n with
  | O => 0
  | S k => float_of_nat k + 1
  end.

(** [np.linspace(start, stop, num)]: [arange(num) * step + start] with
    [step = (stop - start) / (num - 1)], computed as
    [arange(num) / (num - 1) * (stop - start) + start] when the step is
    zero, and the last entry overwritten by [stop]. *)
Definition np_linspace (start stop : float) (num : nat) : list float :=
  let div := float_of_nat (num - 1) in
  let delta := stop - start in
  let step := delta / div in
  map (fun i : nat =>
         if (Nat.eqb i (num - 1) && Nat.ltb 1 num)%bool then stop
         else if step =? 0 then float_of_nat i / div * delta + start
         else float_of_nat i * step + start)
      (seq 0 num).

Record ProjectilePhysics : Type := mkProjectilePhysics {
  v0 : float;
  angle_deg : float;
  h0 : float;
  vx : float;
  vy : float;
  t_flight : float;
  max_height : float;
  range : float;
  x_points : list float;
  y_points : list float
}.

(** [__init__] followed by [calculate].  [math.cos(theta)] and
    [math.sin(theta)] are the C library's; their two results are the
    arguments [cos_theta] and [sin_theta].  On arrays [t**2] is the
    entrywise product. *)
Definition calculate (v0_ angle_deg_ h0_ cos_theta sin_theta : float)
  : result ProjectilePhysics :=
  let vx_ := v0_ * cos_theta in
  let vy_ := v0_ * sin_theta in
  vy_squared <- pow2 vy_ ;;
  let discrim := vy_squared + 2 * GRAVITY * h0_ in
  root <- math_sqrt discrim ;;
  let t_flight_ := (vy_ + root) / GRAVITY in
  vy_squared' <- pow2 vy_ ;;
  let max_height_ := h0_ + vy_squared' / (2 * GRAVITY) in
  let range_ := vx_ * t_flight_ in
  let t := np_linspace 0 t_flight_ 500 in
  Ok {| v0 := v0_; angle_deg := angle_deg_; h0 := h0_;
        vx := vx_; vy := vy_; t_flight := t_flight_;
        max_height := max_height_; range := range_;
        x_points := map (fun ti => vx_ * ti) t;
        y_points :=
          map (fun ti => h0_ + vy_ * ti - 0.5 * GRAVITY * (ti * ti)) t |}.

(** The cosine and sine of [math.radians(90)], the double nearest to pi/2,
    and of [math.radians(0)]. *)
Definition cos_90 : float := 6.123233995736766e-17.
Definition sin_90 : float := 1.
Definition cos_0 : float := 1.
Definition sin_0 : float := 0.

Definition in_flight (self : ProjectilePhysics) (t : float) : bool :=
  ((0 <=? t) && (t <=? t_flight self))%bool.

Definition get_times_for_y (self : ProjectilePhysics) (y_target : float)
  : result (list float) :=
  let a := -0.5 * GRAVITY in
  let b := vy self in
  let c := h0 self - y_target in
  b_squared <- pow2 b ;;
  let disc := b_squared - 4 * a * c in
  if disc <? 0 then Ok []
  else
    s1 <- math_sqrt disc ;;
    let t1 := (- b + s1) / (2 * a) in
    s2 <- math_sqrt disc ;;
    let t2 := (- b - s2) / (2 * a) in
    Ok (filter (in_flight self) [t1; t2]).

(** The time [get_closest_point_to] returns for the sample of index [idx]:
    [idx * self.t_flight / (len(self.x_points) - 1)]. *)
Definition index_time (self : ProjectilePhysics) (idx : nat) : float :=
  float_of_nat idx * t_flight self
  / float_of_nat (List.length (x_points self) - 1).

(** The text of a line edit, as [float()] sees it: [float('nan')] and
    [float('inf')] are numbers. *)
Inductive field : Type :=
| Blank
| NotANumber
| Number (x : float).

Definition float_of (f : field) : result float :=
  match f with
  | Number x => Ok x
  | Blank | NotANumber => Raise ValueError
  end.

(** The first [try] block of [on_simulate]. *)
Definition read_launch (speed angle height : field)
  : result (float * float * float) :=
  v <- float_of speed ;;
  a <- float_of angle ;;
  h <- float_of height ;;
  if ((v <? 0) || (a <? 0) || (90 <? a) || (h <? 0))%bool
  then Raise ValueError
  else Ok (v, a, h).

(** [0 <= angle <= 90], the constraint the warning of [on_simulate]
    states. *)
Definition angle_in_range (a : float) : bool :=
  ((0 <=? a) && (a <=? 90))%bool.

End Binary64.

(** * Properties *)

(** ** Comparisons *)

Lemma Rltb_true (x y : R) : x < y -> Rltb x y = true.
Proof. intros H. unfold Rltb. destruct (Rlt_dec x y); [reflexivity | contradiction]. Qed.

Lemma Rltb_false (x y : R) : y <= x -> Rltb x y = false.
Proof. intros H. unfold Rltb. destruct (Rlt_dec x y); [lra | reflexivity]. Qed.

Lemma Rltb_lt (x y : R) : Rltb x y = true <-> x < y.
Proof. unfold Rltb. destruct (Rlt_dec x y); split; intros; try easy. Qed.

Lemma Rltb_ge (x y : R) : Rltb x y = false <-> y <= x.
Proof. unfold Rltb. destruct (Rlt_dec x y); split; intros; try easy; lra. Qed.

Lemma Rleb_true (x y : R) : x <= y -> Rleb x y = true.
Proof. intros H. unfold Rleb. destruct (Rle_dec x y); [reflexivity | contradiction]. Qed.

Lemma Rleb_false (x y : R) : y < x -> Rleb x y = false.
Proof. intros H. unfold Rleb. destruct (Rle_dec x y); [lra | reflexivity]. Qed.

Lemma Rleb_le (x y : R) : Rleb x y = true <-> x <= y.
Proof. unfold Rleb. destruct (Rle_dec x y); split; intros; try easy. Qed.

Lemma Rleb_gt (x y : R) : Rleb x y = false <-> y < x.
Proof. unfold Rleb. destruct (Rle_dec x y); split; intros; try easy; lra. Qed.

Lemma in_flight_iff (self : ProjectilePhysics) (ti : R) :
  in_flight self ti = true <-> 0 <= ti <= t_flight self.
Proof.
  unfold in_flight. rewrite andb_true_iff, !Rleb_le. tauto.
Qed.

(** ** The library functions *)

Lemma GRAVITY_pos : 0 < GRAVITY.
Proof. unfold GRAVITY. lra. Qed.

Lemma math_sqrt_ok (x : R) : 0 <= x -> math_sqrt x = Ok (sqrt x).
Proof. intros H. unfold math_sqrt. now rewrite Rltb_false. Qed.

Lemma py_pow2_ok (x : R) : x ^ 2 < DBL_OVERFLOW -> py_pow2 x = Ok (x ^ 2).
Proof. intros H. unfold py_pow2. now rewrite Rleb_false. Qed.

Lemma py_pow2_raises (x : R) :
  DBL_OVERFLOW <= x ^ 2 -> py_pow2 x = Raise OverflowError.
Proof. intros H. unfold py_pow2. now rewrite Rleb_true. Qed.

Lemma million_lt_overflow : 1000000 < DBL_OVERFLOW.
Proof. unfold DBL_OVERFLOW. apply IZR_lt. reflexivity. Qed.

(** Speeds up to 1000 m/s are far from the overflow of [vy**2]. *)
Lemma modest_speed_no_overflow (v a : R) :
  -1000 <= v <= 1000 -> (v * sin (math_radians a)) ^ 2 < DBL_OVERFLOW.
Proof.
  intros V. apply Rle_lt_trans with 1000000; [|apply million_lt_overflow].
  pose proof (SIN_bound (math_radians a)) as S.
  set (s := sin (math_radians a)) in *.
  assert (V2 : v ^ 2 <= 1000000) by nra.
  assert (S2 : 0 <= s ^ 2 <= 1) by nra.
  replace ((v * s) ^ 2) with (v ^ 2 * s ^ 2) by ring.
  assert (0 <= v ^ 2) by nra. nra.
Qed.

(** The two decimal constants of the source as fractions, the form [ring]
    and [field] compute with. *)
Lemma half_eq : 0.5 = 1 / 2.
Proof. lra. Qed.

Lemma neg_half_eq : -0.5 = - (1 / 2).
Proof. lra. Qed.

Ltac fractions := rewrite ?neg_half_eq, ?half_eq.

Lemma Rdiv_nonneg (a b : R) : 0 <= a -> 0 < b -> 0 <= a / b.
Proof.
  intros Ha Hb. unfold Rdiv. apply Rmult_le_pos; [assumption|].
  left. now apply Rinv_0_lt_compat.
Qed.

Lemma sqrt_square (x : R) : 0 <= x -> sqrt x ^ 2 = x.
Proof. intros H. simpl. rewrite Rmult_1_r. now apply sqrt_sqrt. Qed.

Lemma radians_range (a : R) :
  0 <= a <= 90 -> 0 <= math_radians a <= PI / 2.
Proof.
  intros [H0 H90]. unfold math_radians. pose proof PI_RGT_0 as Hpi. split; nra.
Qed.

Lemma sin_radians_nonneg (a : R) : 0 <= a <= 90 -> 0 <= sin (math_radians a).
Proof.
  intros H. destruct (radians_range a H) as [H0 H1]. pose proof PI_RGT_0.
  apply sin_ge_0; lra.
Qed.

Lemma cos_radians_nonneg (a : R) : 0 <= a <= 90 -> 0 <= cos (math_radians a).
Proof.
  intros H. destruct (radians_range a H) as [H0 H1]. pose proof PI_RGT_0.
  apply cos_ge_0; lra.
Qed.


Lemma radians_0 : math_radians 0 = 0.
Proof. unfold math_radians. lra. Qed.

Lemma radians_90 : math_radians 90 = PI / 2.
Proof. unfold math_radians. lra. Qed.

(** ** Construction *)

Lemma Ok_inj {A : Type} (x y : A) : Ok x = Ok y -> x = y.
Proof. intros H. congruence. Qed.

Lemma init_built (v a h : R) (p : ProjectilePhysics) :
  ProjectilePhysics_init v a h = Ok p -> built v a h p.
Proof.
  unfold ProjectilePhysics_init, calculate, py_pow2, math_sqrt.
  destruct (Rleb DBL_OVERFLOW _) eqn:O; unfold bind; [discriminate|].
  destruct (Rltb _ 0) eqn:E; [discriminate|].
  apply Rleb_gt in O. apply Rltb_ge in E.
  intros H. apply Ok_inj in H. subst p.
  constructor; try exact E; try exact O;
    cbv beta iota delta [v0 angle_deg h0 vx vy t_flight max_height range
                         x_points y_points];
    reflexivity.
Qed.

Lemma discrim_nonneg (v a h : R) : 0 <= h -> 0 <= launch_discrim v a h.
Proof.
  intros H. unfold launch_discrim. pose proof GRAVITY_pos.
  pose proof (pow2_ge_0 (v * sin (math_radians a))). nra.
Qed.

(** The constructor returns an object when the height is not negative and
    [vy**2] is in range. *)
Lemma init_succeeds_in_range (v a h : R) :
  0 <= h -> (v * sin (math_radians a)) ^ 2 < DBL_OVERFLOW ->
  exists p, ProjectilePhysics_init v a h = Ok p.
Proof.
  intros H O. unfold ProjectilePhysics_init, calculate.
  rewrite (py_pow2_ok _ O). unfold bind.
  rewrite math_sqrt_ok by (apply (discrim_nonneg v a h H)).
  eexists. reflexivity.
Qed.

Lemma init_succeeds (v a h : R) :
  0 <= h -> -1000 <= v <= 1000 ->
  exists p, ProjectilePhysics_init v a h = Ok p.
Proof.
  intros H V. apply init_succeeds_in_range; [exact H|].
  now apply modest_speed_no_overflow.
Qed.

(** Beyond the range of [vy**2] the constructor raises [OverflowError]. *)
Lemma init_overflows (v a h : R) :
  DBL_OVERFLOW <= (v * sin (math_radians a)) ^ 2 ->
  ProjectilePhysics_init v a h = Raise OverflowError.
Proof.
  intros O. unfold ProjectilePhysics_init, calculate.
  rewrite (py_pow2_raises _ O). reflexivity.
Qed.

Lemma built_vy_nonneg (v a h : R) (p : ProjectilePhysics) :
  valid_launch v a h -> built v a h p -> 0 <= vy p.
Proof.
  intros (Hv & Ha & _) B. rewrite (built_vy _ _ _ _ B).
  apply Rmult_le_pos; [assumption | now apply sin_radians_nonneg].
Qed.

Lemma built_vx_nonneg (v a h : R) (p : ProjectilePhysics) :
  valid_launch v a h -> built v a h p -> 0 <= vx p.
Proof.
  intros (Hv & Ha & _) B. rewrite (built_vx _ _ _ _ B).
  apply Rmult_le_pos; [assumption | now apply cos_radians_nonneg].
Qed.

Lemma built_t_flight_bounds (v a h : R) (p : ProjectilePhysics) :
  valid_launch v a h -> built v a h p ->
  0 <= vy p / GRAVITY <= t_flight p.
Proof.
  intros V B. pose proof (built_vy_nonneg _ _ _ _ V B) as Hvy.
  pose proof GRAVITY_pos as Hg.
  rewrite (built_t_flight _ _ _ _ B).
  pose proof (sqrt_pos (vy p ^ 2 + 2 * GRAVITY * h)) as Hs.
  split.
  - apply Rdiv_nonneg; assumption.
  - unfold Rdiv. apply Rmult_le_compat_r; [left; now apply Rinv_0_lt_compat | lra].
Qed.

(** ** The time solver *)

Lemma disc_for_y_built (v a h : R) (p : ProjectilePhysics) (y : R) :
  built v a h p ->
  disc_for_y p y = 2 * GRAVITY * (max_height p - y).
Proof.
  intros B. unfold disc_for_y.
  rewrite (built_max_height _ _ _ _ B), (built_h0 _ _ _ _ B).
  pose proof GRAVITY_pos. fractions. field. lra.
Qed.

Lemma get_times_for_y_no_root (p : ProjectilePhysics) (y : R) :
  disc_for_y p y < 0 -> get_times_for_y p y = Ok [].
Proof.
  intros H. unfold get_times_for_y. now rewrite Rltb_true.
Qed.

(** With a discriminant that is not negative, both square roots succeed and
    the two candidates are [(vy - s) / g] and [(vy + s) / g]. *)
Lemma get_times_for_y_roots (p : ProjectilePhysics) (y : R) :
  0 <= disc_for_y p y ->
  get_times_for_y p y =
  Ok (keep_in_flight p
        [(vy p - sqrt (disc_for_y p y)) / GRAVITY;
         (vy p + sqrt (disc_for_y p y)) / GRAVITY]).
Proof.
  intros H. unfold get_times_for_y.
  rewrite Rltb_false by assumption.
  rewrite math_sqrt_ok by assumption. unfold bind.
  pose proof GRAVITY_pos as Hg. fractions.
  replace ((- vy p + sqrt (disc_for_y p y)) / (2 * (- (1 / 2) * GRAVITY)))
    with ((vy p - sqrt (disc_for_y p y)) / GRAVITY) by (field; lra).
  replace ((- vy p - sqrt (disc_for_y p y)) / (2 * (- (1 / 2) * GRAVITY)))
    with ((vy p + sqrt (disc_for_y p y)) / GRAVITY) by (field; lra).
  reflexivity.
Qed.

Lemma get_times_for_y_total (p : ProjectilePhysics) (y : R) :
  exists times, get_times_for_y p y = Ok times.
Proof.
  destruct (Rlt_dec (disc_for_y p y) 0) as [H | H].
  - exists []. now apply get_times_for_y_no_root.
  - eexists. apply get_times_for_y_roots. lra.
Qed.

(** With a discriminant of exactly zero both candidates are the one time
    [vy / g]: they pass or fail the window test together. *)
Lemma get_times_for_y_zero_disc (p : ProjectilePhysics) (y : R) :
  disc_for_y p y = 0 ->
  get_times_for_y p y =
  Ok (keep_in_flight p [vy p / GRAVITY; vy p / GRAVITY]).
Proof.
  intros D. rewrite get_times_for_y_roots by lra.
  now rewrite D, sqrt_0, Rminus_0_r, Rplus_0_r.
Qed.

Lemma get_times_for_y_double_root (v a h : R) (p : ProjectilePhysics)
  (y : R) :
  valid_launch v a h -> built v a h p ->
  disc_for_y p y = 0 ->
  get_times_for_y p y = Ok [vy p / GRAVITY; vy p / GRAVITY].
Proof.
  intros V B D. rewrite (get_times_for_y_zero_disc p y D).
  assert (F : in_flight p (vy p / GRAVITY) = true).
  { apply in_flight_iff. exact (built_t_flight_bounds _ _ _ _ V B). }
  simpl. now rewrite F.
Qed.

(** C7, as the code has it.  [get_times_for_y] decides by the discriminant
    [b**2 - 4*a*c] it computes, and by nothing else: a negative one gives
    the empty list, any other one the two roots, each kept when it passes
    the window test.  No margin above [max_height] enters. *)
Theorem get_times_for_y_empty (p : ProjectilePhysics) (y : R) :
  (disc_for_y p y < 0 -> get_times_for_y p y = Ok []) /\
  (0 <= disc_for_y p y ->
   get_times_for_y p y =
   Ok (keep_in_flight p [root_first p y; root_second p y])).
Proof.
  split; [apply get_times_for_y_no_root | apply get_times_for_y_roots].
Qed.

(** C3, as the code has it.  When the discriminant computed for the target
    height is exactly zero, as it is at the apex in exact arithmetic, the
    two roots are the same time [vy / g], the time at which the height
    formula gives the target height; each passes the window test on its
    own, so on a valid trajectory the list holds that time twice. *)
Theorem get_times_for_y_apex (v a h : R) (p : ProjectilePhysics) (y : R) :
  valid_launch v a h ->
  ProjectilePhysics_init v a h = Ok p ->
  disc_for_y p y = 0 ->
  get_times_for_y p y = Ok [vy p / GRAVITY; vy p / GRAVITY] /\
  height_at (h0 p) (vy p) (vy p / GRAVITY) = y.
Proof.
  intros V Hp D. pose proof (init_built _ _ _ _ Hp) as B. split.
  - now apply (get_times_for_y_double_root v a h).
  - unfold disc_for_y in D. unfold height_at.
    pose proof GRAVITY_pos as Hg. revert D. fractions. intros D.
    assert (E : y = h0 p + vy p ^ 2 / (2 * GRAVITY)).
    { apply (Rmult_eq_reg_l (2 * GRAVITY)); [| lra].
      replace (2 * GRAVITY * (h0 p + vy p ^ 2 / (2 * GRAVITY)))
        with (2 * GRAVITY * h0 p + vy p ^ 2) by (field; lra).
      lra. }
    rewrite E. field. lra.
Qed.

(** ** Maximum height *)

Lemma max_height_without_climb (v a h : R) (p : ProjectilePhysics) :
  built v a h p -> vy p = 0 -> max_height p = h.
Proof.
  intros B Z. rewrite (built_max_height _ _ _ _ B), Z.
  pose proof GRAVITY_pos as Hg. field. lra.
Qed.

(** C4, as the code has it.  The peak is the launch height plus
    [vy^2 / (2g)]: never below the launch height, and equal to it whenever
    the vertical speed is zero, at angle 0 and at speed 0 alike. *)
Theorem max_height_ge_initial (v a h : R) (p : ProjectilePhysics) :
  valid_launch v a h ->
  ProjectilePhysics_init v a h = Ok p ->
  h0 p <= max_height p /\
  max_height p = h0 p + vy p ^ 2 / (2 * GRAVITY) /\
  (v0 p = 0 \/ angle_deg p = 0 -> max_height p = h0 p).
Proof.
  intros V Hp. pose proof (init_built _ _ _ _ Hp) as B.
  rewrite (built_h0 _ _ _ _ B), (built_v0 _ _ _ _ B), (built_angle _ _ _ _ B).
  split; [| split].
  - rewrite (built_max_height _ _ _ _ B). pose proof GRAVITY_pos as Hg.
    assert (0 <= vy p ^ 2 / (2 * GRAVITY)).
    { apply Rdiv_nonneg; [apply pow2_ge_0 | lra]. }
    lra.
  - exact (built_max_height _ _ _ _ B).
  - intros Z. apply (max_height_without_climb _ _ _ _ B).
    rewrite (built_vy _ _ _ _ B).
    destruct Z as [-> | ->]; [ring|]. rewrite radians_0, sin_0. ring.
Qed.

Lemma valid_30_45_0 : valid_launch 30 45 0.
Proof. unfold valid_launch. lra. Qed.

Lemma valid_30_0_10 : valid_launch 30 0 10.
Proof. unfold valid_launch. lra. Qed.


Lemma valid_20_0_5 : valid_launch 20 0 5.
Proof. unfold valid_launch. lra. Qed.

Lemma max_height_30_45_0 (p : ProjectilePhysics) :
  built 30 45 0 p -> max_height p < 50.
Proof.
  intros B. rewrite (built_max_height _ _ _ _ B), (built_vy _ _ _ _ B).
  pose proof (SIN_bound (math_radians 45)) as [Hl Hu].
  assert (S2 : (30 * sin (math_radians 45)) ^ 2 <= 900) by nra.
  unfold GRAVITY. lra.
Qed.

Lemma get_times_for_y_empty_witness :
  exists p, ProjectilePhysics_init 30 45 0 = Ok p /\
            get_times_for_y p 100 = Ok [].
Proof.
  destruct (init_succeeds 30 45 0) as [p Hp]; [lra | lra |].
  exists p. split; [exact Hp|].
  apply (get_times_for_y_empty p 100).
  rewrite (disc_for_y_built _ _ _ _ _ (init_built _ _ _ _ Hp)).
  pose proof (max_height_30_45_0 p (init_built _ _ _ _ Hp)).
  pose proof GRAVITY_pos. nra.
Defined.

(** C7, as stated, fails on doubles at speed 35000 straight up from the
    ground: for the first double above [max_height + 1e-9] the computed
    discriminant is still zero, and the solver returns two times. *)
Lemma get_times_for_y_just_above_apex :
  exists p y times,
    Binary64.calculate 35000 90 0 Binary64.cos_90 Binary64.sin_90 = Ok p /\
    y = next_up (Binary64.max_height p + 1e-9)%float /\
    PrimFloat.ltb (Binary64.max_height p + 1e-9)%float y = true /\
    Binary64.get_times_for_y p y = Ok times /\
    List.length times = 2%nat.
Proof.
  eexists. eexists. eexists.
  split; [vm_compute; reflexivity|].
  split; [reflexivity|].
  split; [vm_compute; reflexivity|].
  split; [vm_compute; reflexivity|].
  reflexivity.
Qed.

Lemma get_times_for_y_apex_witness :
  exists p, ProjectilePhysics_init 20 0 5 = Ok p /\
            get_times_for_y p 5 = Ok [vy p / GRAVITY; vy p / GRAVITY].
Proof.
  destruct (init_succeeds 20 0 5) as [p Hp]; [lra | lra |].
  exists p. split; [exact Hp|].
  apply (get_times_for_y_apex 20 0 5 p 5 valid_20_0_5 Hp).
  pose proof (init_built _ _ _ _ Hp) as B. unfold disc_for_y.
  rewrite (built_vy _ _ _ _ B), (built_h0 _ _ _ _ B), radians_0, sin_0.
  ring.
Defined.

(** C3, as stated, fails on a horizontal launch from 10 m at 30 m/s: asked
    for the apex height, the solver returns two times, not one. *)
Lemma get_times_for_y_apex_twice :
  exists p, ProjectilePhysics_init 30 0 10 = Ok p /\
            max_height p = 10 /\
            get_times_for_y p (max_height p) = Ok [0; 0] /\
            ~ (exists t1, get_times_for_y p (max_height p) = Ok [t1]).
Proof.
  destruct (init_succeeds 30 0 10) as [p Hp]; [lra | lra |].
  pose proof (init_built _ _ _ _ Hp) as B.
  assert (Vy : vy p = 0).
  { rewrite (built_vy _ _ _ _ B), radians_0, sin_0. ring. }
  assert (M : max_height p = 10).
  { rewrite (built_max_height _ _ _ _ B), Vy. unfold GRAVITY. lra. }
  assert (T : get_times_for_y p (max_height p) = Ok [0; 0]).
  { rewrite (get_times_for_y_double_root _ _ _ _ _ valid_30_0_10 B).
    - rewrite Vy. unfold Rdiv. now rewrite Rmult_0_l.
    - unfold disc_for_y. rewrite M, Vy, (built_h0 _ _ _ _ B). ring. }
  exists p. repeat split; [exact Hp | exact M | exact T |].
  intros [t1 H1]. rewrite T in H1. discriminate.
Qed.

(** The same queries on doubles.  A horizontal launch stores
    [max_height = h0] exactly, the computed discriminant is zero, and the
    solver returns two zeros.  Straight up at 50 m/s from 10 m the stored
    [max_height] is rounded, the discriminant computed for it comes out
    negative, and the solver returns nothing. *)
Lemma apex_query_on_doubles :
  (exists p,
     Binary64.calculate 30 0 10 Binary64.cos_0 Binary64.sin_0 = Ok p /\
     Binary64.max_height p = 10%float /\
     Binary64.get_times_for_y p (Binary64.max_height p)
     = Ok [(-0)%float; 0%float]) /\
  (exists p,
     Binary64.calculate 50 90 10 Binary64.cos_90 Binary64.sin_90 = Ok p /\
     Binary64.get_times_for_y p (Binary64.max_height p) = Ok []).
Proof.
  split; eexists; (split; [vm_compute; reflexivity|]).
  - split; vm_compute; reflexivity.
  - vm_compute; reflexivity.
Qed.

Lemma max_height_ge_initial_witness :
  exists p, ProjectilePhysics_init 30 45 0 = Ok p /\
            h0 p <= max_height p.
Proof.
  destruct (init_succeeds 30 45 0) as [p Hp]; [lra | lra |].
  exists p. split; [exact Hp|].
  apply (max_height_ge_initial 30 45 0 p valid_30_45_0 Hp).
Defined.

(** C4, as stated, fails at speed 0 and angle 45: the peak equals the launch
    height although the angle is not 0. *)
Lemma max_height_eq_initial_at_rest :
  exists p, ProjectilePhysics_init 0 45 0 = Ok p /\
            max_height p = h0 p /\ angle_deg p <> 0 /\
            ~ (max_height p = h0 p <-> angle_deg p = 0).
Proof.
  destruct (init_succeeds 0 45 0) as [p Hp]; [lra | lra |].
  pose proof (init_built _ _ _ _ Hp) as B.
  assert (E : max_height p = h0 p).
  { rewrite (built_h0 _ _ _ _ B). apply (max_height_without_climb _ _ _ _ B).
    rewrite (built_vy _ _ _ _ B). ring. }
  assert (N : angle_deg p <> 0) by (rewrite (built_angle _ _ _ _ B); lra).
  exists p. repeat split; [exact Hp | exact E | exact N |].
  intros [F _]. exact (N (F E)).
Qed.

(** On doubles the peak can equal the launch height with neither the speed
    nor the angle zero: at 1e-7 m/s straight up from 100 m the term
    [vy^2 / (2g)] is absorbed by the sum. *)
Lemma max_height_absorbed :
  exists p,
    Binary64.calculate 1e-7 90 100 Binary64.cos_90 Binary64.sin_90 = Ok p /\
    Binary64.max_height p = Binary64.h0 p /\
    PrimFloat.eqb (Binary64.v0 p) 0 = false /\
    PrimFloat.eqb (Binary64.vy p) 0 = false /\
    PrimFloat.eqb (Binary64.angle_deg p) 0 = false.
Proof.
  eexists. split; [vm_compute; reflexivity|].
  repeat split; vm_compute; reflexivity.
Qed.

(** ** The form handler *)

Lemma read_launch_numbers (f : form) (v a h : R) :
  input_speed f = Number v -> input_angle f = Number a ->
  input_height f = Number h ->
  read_launch f =
  if (Rltb v 0 || Rltb a 0 || Rltb 90 a || Rltb h 0)%bool
  then Raise ValueError else Ok (v, a, h).
Proof.
  intros Hv Ha Hh. unfold read_launch. rewrite Hv, Ha, Hh. reflexivity.
Qed.

Lemma launch_check_rejects (v a h : R) :
  v < 0 \/ a < 0 \/ 90 < a \/ h < 0 ->
  (Rltb v 0 || Rltb a 0 || Rltb 90 a || Rltb h 0)%bool = true.
Proof.
  intros H. rewrite !orb_true_iff, !Rltb_lt. tauto.
Qed.

Lemma launch_check_accepts (v a h : R) :
  valid_launch v a h ->
  (Rltb v 0 || Rltb a 0 || Rltb 90 a || Rltb h 0)%bool = false.
Proof.
  intros (Hv & [Ha Hb] & Hh).
  rewrite !Rltb_false by assumption. reflexivity.
Qed.

(** Once the object is built it is stored in the window, whatever the
    target query does afterwards. *)
Lemma on_simulate_stores (w : window) (f : form) (v a h : R)
  (tx ty : option R) (p : ProjectilePhysics) :
  read_launch f = Ok (v, a, h) ->
  read_target f = Ok (tx, ty) ->
  ProjectilePhysics_init v a h = Ok p ->
  physics (fst (on_simulate w f)) = Some p.
Proof.
  intros L T P. unfold on_simulate. rewrite L, T, P.
  destruct (query_target p tx ty) as [[[label hit] closest] | e]; reflexivity.
Qed.

(** With three finite numbers in the launch fields: if one of them breaks
    its constraint, [on_simulate] warns and returns with the window
    untouched, before any [ProjectilePhysics] is built; if all three hold
    and [vy**2] is in range, the constructor returns an object, and
    [on_simulate] stores it whenever the target fields are acceptable. *)
Lemma on_simulate_checks_numbers (w : window) (f : form) (v a h : R) :
  input_speed f = Number v ->
  input_angle f = Number a ->
  input_height f = Number h ->
  (v < 0 \/ a < 0 \/ 90 < a \/ h < 0 ->
   read_launch f = Raise ValueError /\
   on_simulate w f = (w, Warning "Invalid Input")) /\
  (valid_launch v a h ->
   (v * sin (math_radians a)) ^ 2 < DBL_OVERFLOW ->
   exists p,
     ProjectilePhysics_init v a h = Ok p /\
     forall tx ty, read_target f = Ok (tx, ty) ->
                   physics (fst (on_simulate w f)) = Some p).
Proof.
  intros Hv Ha Hh. pose proof (read_launch_numbers f v a h Hv Ha Hh) as L.
  split.
  - intros Bad. rewrite launch_check_rejects in L by assumption.
    split; [exact L|]. unfold on_simulate. now rewrite L.
  - intros V O. rewrite launch_check_accepts in L by assumption.
    destruct V as (V1 & V2 & V3).
    destruct (init_succeeds_in_range v a h V3 O) as [p Hp].
    exists p. split; [exact Hp|].
    intros tx ty T. now apply (on_simulate_stores w f v a h tx ty p).
Qed.

(** A launch that passes the check with [vy**2] out of range: the
    [OverflowError] of the constructor leaves [on_simulate], outside any
    [try], and the stored object stays the one of the previous run. *)
Lemma on_simulate_overflow (w : window) (f : form) (v a h : R)
  (tx ty : option R) :
  read_launch f = Ok (v, a, h) ->
  read_target f = Ok (tx, ty) ->
  DBL_OVERFLOW <= (v * sin (math_radians a)) ^ 2 ->
  snd (on_simulate w f) = Uncaught OverflowError /\
  physics (fst (on_simulate w f)) = physics w.
Proof.
  intros L T O. unfold on_simulate.
  rewrite L, T, (init_overflows v a h O). split; reflexivity.
Qed.

(** C2.  Two launches the check of [on_simulate] lets through, on doubles.
    With the text [nan] in the angle field (speed 30, height 0) none of the
    four comparisons holds, so no [ValueError] is raised although the angle
    is not within 0 and 90, and the constructor returns an object whose
    flight time, peak and range are NaN.  With speed 1e200 at 90 degrees
    from the ground, a launch that meets all three constraints, the
    constructor raises [OverflowError] at [self.vy**2]. *)
Theorem launch_check_misses :
  Binary64.read_launch (Binary64.Number 30) (Binary64.Number nan)
                       (Binary64.Number 0)
  = Ok (30, nan, 0)%float /\
  Binary64.angle_in_range nan = false /\
  (exists p, Binary64.calculate 30 nan 0 nan nan = Ok p /\
             Binary64.t_flight p = nan /\
             Binary64.max_height p = nan /\
             Binary64.range p = nan) /\
  Binary64.read_launch (Binary64.Number 1e200) (Binary64.Number 90)
                       (Binary64.Number 0)
  = Ok (1e200, 90, 0)%float /\
  Binary64.angle_in_range 90 = true /\
  Binary64.calculate 1e200 90 0 Binary64.cos_90 Binary64.sin_90
  = Raise OverflowError.
Proof.
  repeat split; try (vm_compute; reflexivity).
  eexists. split; [vm_compute; reflexivity|].
  repeat split; vm_compute; reflexivity.
Qed.

(** The checks live in [on_simulate] alone: called directly, the
    constructor accepts a negative speed. *)
Lemma init_checks_nothing :
  exists p, ProjectilePhysics_init (-5) 45 0 = Ok p.
Proof. apply init_succeeds; lra. Qed.

(** An X-only query asks the object for [get_y_at_x], a name that neither
    the class nor [__init__] binds. *)
Lemma get_y_at_x_unbound (p : ProjectilePhysics) (x : R) :
  call_method1 p "get_y_at_x" x = Raise (AttributeError "get_y_at_x").
Proof. reflexivity. Qed.

Lemma x_only_always_raises (w : window) (f : form) (v a h x : R) :
  valid_launch v a h -> -1000 <= v <= 1000 -> 0 <= x ->
  input_speed f = Number v -> input_angle f = Number a ->
  input_height f = Number h ->
  input_target_x f = Number x -> input_target_y f = Blank ->
  snd (on_simulate w f) = Uncaught (AttributeError "get_y_at_x").
Proof.
  intros V M Hx Hv Ha Hh Htx Hty.
  pose proof (read_launch_numbers f v a h Hv Ha Hh) as L.
  rewrite launch_check_accepts in L by assumption.
  destruct V as (V1 & V2 & V3).
  destruct (init_succeeds v a h V3 M) as [p Hp].
  unfold on_simulate. rewrite L.
  unfold read_target. rewrite Htx, Hty. simpl.
  rewrite Rltb_false by assumption.
  rewrite Hp. reflexivity.
Qed.

(** C1.  The default launch with target X = 10 and target Y blank: the call
    leaves [on_simulate] with an [AttributeError], where the claim promises
    a height or an out-of-range message. *)
Theorem x_only_query_raises (w : window) :
  snd (on_simulate w x_only_form) = Uncaught (AttributeError "get_y_at_x").
Proof.
  apply (x_only_always_raises w x_only_form 30 45 0 10);
    try reflexivity; [exact valid_30_45_0 | lra | lra].
Qed.

(** ** The hit test *)

Lemma first_hit_accept (p : ProjectilePhysics) (x y ti : R) (rest : list R) :
  accepts p x ti ->
  first_hit p x y (ti :: rest) = (true, Some (hit_details p y ti)).
Proof.
  intros A. simpl. unfold accepts in A. now rewrite Rltb_true.
Qed.

Lemma first_hit_skip (p : ProjectilePhysics) (x y ti : R) (rest : list R) :
  ~ accepts p x ti ->
  first_hit p x y (ti :: rest) = first_hit p x y rest.
Proof.
  intros A. simpl. unfold accepts in A. rewrite Rltb_false; [reflexivity | lra].
Qed.

(** The loop either stops at the first accepted time, or runs through a
    list without any and answers [(False, None)]. *)
Lemma first_hit_cases (p : ProjectilePhysics) (x y : R) (times : list R) :
  (exists before ti after,
      times = before ++ ti :: after /\
      (forall u, In u before -> ~ accepts p x u) /\
      accepts p x ti /\
      first_hit p x y times = (true, Some (hit_details p y ti)))
  \/ ((forall u, In u times -> ~ accepts p x u) /\
      first_hit p x y times = (false, None)).
Proof.
  induction times as [| ti rest IH].
  - right. split; [intros u [] | reflexivity].
  - destruct (Rlt_dec (Rabs (vx p * ti - x)) 1e-2) as [A | A].
    + left. exists [], ti, rest. repeat split.
      * intros u [].
      * exact A.
      * now apply first_hit_accept.
    + rewrite (first_hit_skip p x y ti rest A).
      destruct IH as [(before & tj & after & E & N & Aj & F) | [N F]].
      * left. exists (ti :: before), tj, after. repeat split.
        -- simpl. now rewrite E.
        -- intros u [<- | I]; [exact A | now apply N].
        -- exact Aj.
        -- exact F.
      * right. split; [| exact F].
        intros u [<- | I]; [exact A | now apply N].
Qed.

(** C5.  [is_target_reachable] always returns; it reports a hit exactly when
    one of the times of [get_times_for_y] passes [|vx*t - x_target| < 0.01],
    the hit carries the first such time in the order of the list, and
    without one the answer is [(False, None)]. *)
Theorem is_target_reachable_first_accepted
  (p : ProjectilePhysics) (x y : R) :
  exists times r,
    get_times_for_y p y = Ok times /\
    is_target_reachable p x y = Ok r /\
    (fst r = true <-> exists ti, In ti times /\ accepts p x ti) /\
    (fst r = true ->
     exists before ti after,
       times = before ++ ti :: after /\
       (forall u, In u before -> ~ accepts p x u) /\
       accepts p x ti /\
       r = (true, Some (hit_details p y ti))) /\
    (fst r = false -> r = (false, None)).
Proof.
  destruct (get_times_for_y_total p y) as [times T].
  exists times, (first_hit p x y times).
  split; [exact T|]. split.
  { unfold is_target_reachable. now rewrite T. }
  destruct (first_hit_cases p x y times)
    as [(before & ti & after & E & N & A & F) | [N F]]; rewrite F; simpl.
  - repeat split.
    + intros _. exists ti. split; [| exact A].
      rewrite E. apply in_or_app. right. now left.
    + intros _. exists before, ti, after. auto.
    + discriminate.
  - repeat split.
    + discriminate.
    + intros (ti & I & A). exfalso. exact (N ti I A).
    + discriminate.
Qed.

(** C10.  The answer of [is_target_reachable] is either [(True, details)],
    where [actual_y] is the queried height itself, [actual_x] is [vx * t]
    and lies within 0.01 of the queried X, or the bare pair
    [(False, None)]. *)
Theorem is_target_reachable_details (p : ProjectilePhysics) (x y : R) :
  exists r,
    is_target_reachable p x y = Ok r /\
    ((exists d,
         r = (true, Some d) /\
         actual_y d = y /\
         actual_x d = vx p * t d /\
         Rabs (actual_x d - x) < 1e-2)
     \/ r = (false, None)).
Proof.
  destruct (get_times_for_y_total p y) as [times T].
  exists (first_hit p x y times). split.
  { unfold is_target_reachable. now rewrite T. }
  destruct (first_hit_cases p x y times)
    as [(before & ti & after & E & N & A & F) | [N F]]; rewrite F.
  - left. exists (hit_details p y ti). repeat split. exact A.
  - now right.
Qed.

(** ** Order of the two roots *)

Lemma keep_in_flight_In (p : ProjectilePhysics) (l : list R) (u : R) :
  In u (keep_in_flight p l) <-> In u l /\ 0 <= u <= t_flight p.
Proof.
  induction l as [| ti rest IH]; simpl.
  - tauto.
  - destruct (in_flight p ti) eqn:F; simpl; rewrite IH.
    + apply in_flight_iff in F. split.
      * intros [<- | [I W]]; auto.
      * intros [[<- | I] W]; auto.
    + split.
      * intros [I W]. auto.
      * intros [[<- | I] W]; [| auto].
        apply in_flight_iff in W. congruence.
Qed.




(** A time at which the height is [y] is one of the two roots. *)
Lemma height_root (p : ProjectilePhysics) (y u : R) :
  height_at (h0 p) (vy p) u = y ->
  0 <= disc_for_y p y /\
  (u = (vy p - sqrt (disc_for_y p y)) / GRAVITY \/
   u = (vy p + sqrt (disc_for_y p y)) / GRAVITY).
Proof.
  intros H. pose proof GRAVITY_pos as Hg.
  assert (D : disc_for_y p y = Rsqr (GRAVITY * u - vy p)).
  { unfold disc_for_y, Rsqr. unfold height_at in H. subst y.
    fractions. field. }
  rewrite D. split; [apply Rle_0_sqr|].
  rewrite sqrt_Rsqr_abs.
  unfold Rabs. destruct (Rcase_abs (GRAVITY * u - vy p)).
  - left. field. lra.
  - right. field. lra.
Qed.

(** Conversely each root is a time at which the height is [y]. *)
Lemma root_height (p : ProjectilePhysics) (y u : R) :
  0 <= disc_for_y p y ->
  u = (vy p - sqrt (disc_for_y p y)) / GRAVITY \/
  u = (vy p + sqrt (disc_for_y p y)) / GRAVITY ->
  height_at (h0 p) (vy p) u = y.
Proof.
  intros D U. pose proof GRAVITY_pos as Hg.
  pose proof (sqrt_square _ D) as S.
  assert (E : disc_for_y p y = vy p ^ 2 + 2 * GRAVITY * (h0 p - y)).
  { unfold disc_for_y. fractions. field. }
  set (s := sqrt (disc_for_y p y)) in *.
  assert (Y : y = h0 p + (vy p ^ 2 - s ^ 2) / (2 * GRAVITY)).
  { rewrite S, E. field. lra. }
  unfold height_at. fractions. rewrite Y.
  destruct U as [-> | ->]; field; lra.
Qed.

(** The list of [get_times_for_y] holds exactly the times of the flight
    window at which the height is [y]. *)
Lemma get_times_for_y_In (p : ProjectilePhysics) (y u : R) (times : list R) :
  get_times_for_y p y = Ok times ->
  (In u times <->
   0 <= u <= t_flight p /\ height_at (h0 p) (vy p) u = y).
Proof.
  intros T. destruct (Rlt_dec (disc_for_y p y) 0) as [H | H].
  - rewrite get_times_for_y_no_root in T by assumption.
    injection T as <-. split; [intros [] |].
    intros [_ E]. apply height_root in E. lra.
  - assert (D : 0 <= disc_for_y p y) by lra.
    rewrite get_times_for_y_roots in T by assumption.
    apply Ok_inj in T. subst times.
    rewrite keep_in_flight_In. simpl In. split.
    + intros [[E | [E | []]] W]; (split; [exact W|]);
        apply (root_height p y u D); auto.
    + intros [W E]. split; [| exact W].
      destruct (height_root p y u E) as [_ [-> | ->]]; auto.
Qed.



(** ** The samples *)

Lemma length_np_linspace (start stop : R) (n : nat) :
  List.length (np_linspace start stop n) = n.
Proof. unfold np_linspace. now rewrite length_map, length_seq. Qed.

Lemma nth_map_in_range {A B : Type} (f : A -> B) (l : list A) (i : nat)
  (d : A) (e : B) :
  (i < List.length l)%nat -> nth i (map f l) e = f (nth i l d).
Proof.
  intros H. rewrite (nth_indep (map f l) e (f d)).
  - apply map_nth.
  - now rewrite length_map.
Qed.

(** Every entry of [np.linspace(0, T, n)], the overwritten last one too, is
    the index times the step. *)
Lemma nth_np_linspace (T : R) (n i : nat) :
  (1 < n)%nat -> (i < n)%nat ->
  nth i (np_linspace 0 T n) 0 = sample_time T n i.
Proof.
  intros Hn Hi. unfold np_linspace, sample_time.
  rewrite (nth_map_in_range _ _ _ 0%nat) by now rewrite length_seq.
  rewrite seq_nth by assumption. simpl Nat.add.
  assert (NZ : INR (n - 1) <> 0) by (apply not_0_INR; lia).
  destruct (Nat.eqb i (n - 1)) eqn:E; simpl.
  - apply Nat.eqb_eq in E. subst i.
    assert (L : Nat.ltb 1 n = true) by now apply Nat.ltb_lt.
    rewrite L. field. exact NZ.
  - rewrite Rminus_0_r. ring.
Qed.





Lemma built_lengths (v a h : R) (p : ProjectilePhysics) :
  built v a h p ->
  List.length (x_points p) = 500%nat /\ List.length (y_points p) = 500%nat.
Proof.
  intros B.
  rewrite (built_x_points _ _ _ _ B), (built_y_points _ _ _ _ B).
  now rewrite !length_map, length_np_linspace.
Qed.

Lemma built_x_nth (v a h : R) (p : ProjectilePhysics) (i : nat) :
  built v a h p -> (i < 500)%nat ->
  nth i (x_points p) 0 = vx p * sample_time (t_flight p) 500 i.
Proof.
  intros B Hi. rewrite (built_x_points _ _ _ _ B).
  rewrite (nth_map_in_range _ _ _ 0) by now rewrite length_np_linspace.
  rewrite nth_np_linspace by lia. reflexivity.
Qed.







(** With speed 0 every sample has X = 0: along such a path X can only be
    non-decreasing, never strictly increasing. *)
Lemma x_points_at_rest :
  exists p,
    ProjectilePhysics_init 0 45 0 = Ok p /\
    forall i, (i < 500)%nat -> nth i (x_points p) 0 = 0.
Proof.
  destruct (init_succeeds 0 45 0) as [p Hp]; [lra | lra |].
  pose proof (init_built _ _ _ _ Hp) as B.
  exists p. split; [exact Hp|]. intros i Hi.
  rewrite (built_x_nth _ _ _ _ i B) by exact Hi.
  rewrite (built_vx _ _ _ _ B). ring.
Qed.

(** ** The nearest sample *)

(** The scan keeps the running minimum: either nothing in [l] is below
    [bv] and [best] stays, or the answer is the index of an entry of [l]
    that is below [bv] and at most every entry of [l]. *)
Lemma argmin_from_cases (l : list R) :
  forall (best : nat) (bv : R) (i : nat),
    (argmin_from best bv i l = best /\ forall u, In u l -> bv <= u)
    \/ (exists k, (k < List.length l)%nat /\
                  argmin_from best bv i l = (i + k)%nat /\
                  nth k l 0 < bv /\
                  forall u, In u l -> nth k l 0 <= u).
Proof.
  induction l as [| u0 rest IH]; intros best bv i; simpl.
  - left. split; [reflexivity | intros u []].
  - destruct (Rltb u0 bv) eqn:E.
    + apply Rltb_lt in E.
      destruct (IH i u0 (S i)) as [[R A] | (k & Hk & R & Lt & A)].
      * right. exists 0%nat. repeat split.
        -- lia.
        -- rewrite R. lia.
        -- exact E.
        -- intros u [<- | I]; [lra | now apply A].
      * right. exists (S k). repeat split.
        -- lia.
        -- rewrite R. lia.
        -- simpl. lra.
        -- intros u [<- | I]; simpl; [lra | now apply A].
    + apply Rltb_ge in E.
      destruct (IH best bv (S i)) as [[R A] | (k & Hk & R & Lt & A)].
      * left. split; [exact R|].
        intros u [<- | I]; [exact E | now apply A].
      * right. exists (S k). repeat split.
        -- lia.
        -- rewrite R. lia.
        -- exact Lt.
        -- intros u [<- | I]; simpl; [lra | now apply A].
Qed.

(** [np.argmin] on an array that is not empty: an index of the array whose
    entry is at most every entry. *)
Lemma np_argmin_least (a : list R) :
  a <> [] ->
  exists idx,
    np_argmin a = Ok idx /\ (idx < List.length a)%nat /\
    forall j, (j < List.length a)%nat -> nth idx a 0 <= nth j a 0.
Proof.
  destruct a as [| u0 rest]; [congruence | intros _].
  simpl np_argmin.
  destruct (argmin_from_cases rest 0%nat u0 1%nat)
    as [[R A] | (k & Hk & R & Lt & A)]; rewrite R.
  - exists 0%nat. repeat split; [simpl; lia|].
    intros [| j] Hj; simpl; [lra|].
    apply A. apply nth_In. simpl in Hj. lia.
  - exists (1 + k)%nat. repeat split; [simpl; lia|].
    intros [| j] Hj; simpl; [lra|].
    apply A. apply nth_In. simpl in Hj. lia.
Qed.


Lemma length_distances_to (p : ProjectilePhysics) (x y : R) :
  List.length (x_points p) = List.length (y_points p) ->
  List.length (distances_to p x y) = List.length (x_points p).
Proof.
  intros L. unfold distances_to.
  rewrite length_map, length_combine, <- L. lia.
Qed.



(** ** Two runs of the hit test *)

(** A vertical shot at 20 m/s from the ground, asked about the launch
    point: the height 0 is met at time 0 and again at landing, both times
    pass the test (X stays 0), and the hit reported is the one at time 0. *)
Example vertical_shot_hit_at_launch :
  exists p,
    ProjectilePhysics_init 20 90 0 = Ok p /\
    get_times_for_y p 0 = Ok [0; 40 / GRAVITY] /\
    is_target_reachable p 0 0 = Ok (true, Some (hit_details p 0 0)).
Proof.
  destruct (init_succeeds 20 90 0) as [p Hp]; [lra | lra |].
  pose proof (init_built _ _ _ _ Hp) as B. pose proof GRAVITY_pos as Hg.
  assert (Vy : vy p = 20).
  { rewrite (built_vy _ _ _ _ B), radians_90, sin_PI2. ring. }
  assert (Vx : vx p = 0).
  { rewrite (built_vx _ _ _ _ B), radians_90, cos_PI2. ring. }
  assert (S20 : sqrt 400 = 20).
  { replace 400 with (Rsqr 20) by (unfold Rsqr; ring). apply sqrt_Rsqr. lra. }
  assert (T : t_flight p = 40 / GRAVITY).
  { rewrite (built_t_flight _ _ _ _ B), Vy.
    replace (20 ^ 2 + 2 * GRAVITY * 0) with 400 by ring.
    rewrite S20. field. lra. }
  assert (D : disc_for_y p 0 = 400).
  { unfold disc_for_y. rewrite Vy, (built_h0 _ _ _ _ B). ring. }
  assert (P40 : 0 < 40 / GRAVITY) by (apply Rdiv_lt_0_compat; lra).
  assert (Ts : get_times_for_y p 0 = Ok [0; 40 / GRAVITY]).
  { rewrite get_times_for_y_roots by (rewrite D; lra).
    rewrite D, S20, Vy.
    replace ((20 - 20) / GRAVITY) with 0 by (field; lra).
    replace ((20 + 20) / GRAVITY) with (40 / GRAVITY) by (field; lra).
    simpl. unfold in_flight. rewrite T.
    rewrite !Rleb_true by lra. reflexivity. }
  exists p. split; [exact Hp|]. split; [exact Ts|].
  unfold is_target_reachable. rewrite Ts. unfold bind.
  rewrite first_hit_accept; [reflexivity|].
  unfold accepts. rewrite Vx, Rmult_0_l, Rminus_0_r, Rabs_R0. lra.
Qed.

(** A horizontal shot from 10 m, asked about a point 50 m out at launch
    height: the only candidate time is 0, where X is 0, and the answer is
    the bare miss. *)
Example horizontal_shot_miss :
  exists p,
    ProjectilePhysics_init 30 0 10 = Ok p /\
    is_target_reachable p 50 10 = Ok (false, None).
Proof.
  destruct (init_succeeds 30 0 10) as [p Hp]; [lra | lra |].
  pose proof (init_built _ _ _ _ Hp) as B. pose proof GRAVITY_pos as Hg.
  assert (Vy : vy p = 0).
  { rewrite (built_vy _ _ _ _ B), radians_0, sin_0. ring. }
  assert (M : max_height p = 10).
  { rewrite (built_max_height _ _ _ _ B), Vy. field. lra. }
  assert (D : disc_for_y p 10 = 0).
  { unfold disc_for_y. rewrite Vy, (built_h0 _ _ _ _ B). ring. }
  pose proof (get_times_for_y_double_root _ _ _ _ _ valid_30_0_10 B D) as Ts.
  rewrite Vy in Ts.
  replace (0 / GRAVITY) with 0 in Ts by (field; lra).
  exists p. split; [exact Hp|].
  unfold is_target_reachable. rewrite Ts. unfold bind.
  assert (N : ~ accepts p 50 0).
  { unfold accepts. rewrite Rmult_0_r.
    replace (0 - 50) with (- (50)) by ring.
    rewrite Rabs_Ropp, Rabs_pos_eq; lra. }
  now rewrite !first_hit_skip by exact N.
Qed.

(** * Further properties of the engine *)

(** ** The times returned *)

Lemma sqrt_sq_nonneg (x : R) : 0 <= x -> sqrt (x ^ 2) = x.
Proof.
  intros H. replace (x ^ 2) with (Rsqr x) by (unfold Rsqr; ring).
  now apply sqrt_Rsqr.
Qed.





Lemma first_hit_none (p : ProjectilePhysics) (x y : R) (times : list R) :
  (forall u, In u times -> ~ accepts p x u) ->
  first_hit p x y times = (false, None).
Proof.
  intros N.
  destruct (first_hit_cases p x y times)
    as [(before & ti & after & E & _ & A & _) | [_ F]]; [| exact F].
  exfalso. apply (N ti); [| exact A].
  rewrite E. apply in_or_app. right. now left.
Qed.



Lemma built_x_in_range (v a h : R) (p : ProjectilePhysics) (u : R) :
  valid_launch v a h -> built v a h p ->
  0 <= u <= t_flight p -> 0 <= vx p * u <= range p.
Proof.
  intros V B [H0 H1]. pose proof (built_vx_nonneg _ _ _ _ V B) as Hvx.
  rewrite (built_range _ _ _ _ B). split.
  - now apply Rmult_le_pos.
  - now apply Rmult_le_compat_l.
Qed.

(** X4.  On a valid trajectory a target is never reported as hit when its
    X lies 0.01 or more outside [0, range], whatever its Y: the answer is
    the bare [(False, None)]. *)
Theorem is_target_reachable_out_of_reach (v a h : R)
  (p : ProjectilePhysics) (x y : R) :
  valid_launch v a h ->
  ProjectilePhysics_init v a h = Ok p ->
  x <= - 1e-2 \/ range p + 1e-2 <= x ->
  is_target_reachable p x y = Ok (false, None).
Proof.
  intros V Hp Out. pose proof (init_built _ _ _ _ Hp) as B.
  destruct (get_times_for_y_total p y) as [times T].
  unfold is_target_reachable. rewrite T. unfold bind. f_equal.
  apply first_hit_none. intros u I A.
  apply (get_times_for_y_In p y u times T) in I. destruct I as [W E].
  pose proof (built_x_in_range v a h p u V B W) as X.
  unfold accepts in A. apply Rabs_def2 in A.
  destruct Out as [O | O]; lra.
Qed.

Lemma is_target_reachable_out_of_reach_witness :
  exists p,
    ProjectilePhysics_init 30 45 0 = Ok p /\
    is_target_reachable p (-1) 5 = Ok (false, None).
Proof.
  destruct (init_succeeds 30 45 0) as [p Hp]; [lra | lra |].
  exists p. split; [exact Hp|].
  apply (is_target_reachable_out_of_reach 30 45 0 p (-1) 5 valid_30_45_0 Hp).
  lra.
Defined.



(** ** The sampled path *)










(** X9.  Launched from the ground, the stored scalars are the textbook
    closed forms: [t_flight = 2 vy / g], [range = v0^2 sin(2 theta) / g]
    and [max_height = vy^2 / (2 g)]. *)
Theorem ground_launch_closed_forms (v a : R) (p : ProjectilePhysics) :
  valid_launch v a 0 ->
  ProjectilePhysics_init v a 0 = Ok p ->
  t_flight p = 2 * vy p / GRAVITY /\
  range p = v ^ 2 * sin (2 * math_radians a) / GRAVITY /\
  max_height p = vy p ^ 2 / (2 * GRAVITY).
Proof.
  intros V Hp. pose proof (init_built _ _ _ _ Hp) as B.
  pose proof GRAVITY_pos as Hg.
  pose proof (built_vy_nonneg _ _ _ _ V B) as Hvy.
  assert (T : t_flight p = 2 * vy p / GRAVITY).
  { rewrite (built_t_flight _ _ _ _ B).
    replace (vy p ^ 2 + 2 * GRAVITY * 0) with (vy p ^ 2) by ring.
    rewrite sqrt_sq_nonneg by exact Hvy. field. lra. }
  split; [exact T|]. split.
  - rewrite (built_range _ _ _ _ B), T.
    rewrite (built_vx _ _ _ _ B), (built_vy _ _ _ _ B), sin_2a.
    field. lra.
  - rewrite (built_max_height _ _ _ _ B). field. lra.
Qed.

Lemma ground_launch_closed_forms_witness :
  exists p,
    ProjectilePhysics_init 30 45 0 = Ok p /\
    t_flight p = 2 * vy p / GRAVITY.
Proof.
  destruct (init_succeeds 30 45 0) as [p Hp]; [lra | lra |].
  exists p. split; [exact Hp|].
  apply (ground_launch_closed_forms 30 45 p valid_30_45_0 Hp).
Defined.

(** ** Ties in the nearest-sample search *)





(** * Further properties of the form handler *)

Lemma read_launch_raises (f : form) (e : exn) :
  read_launch f = Raise e -> e = ValueError.
Proof.
  unfold read_launch.
  destruct (input_speed f), (input_angle f), (input_height f);
    simpl; try congruence.
  destruct (_ || _)%bool; congruence.
Qed.

Lemma read_launch_text (f : form) :
  not_a_float (input_speed f) \/ not_a_float (input_angle f)
  \/ not_a_float (input_height f) ->
  read_launch f = Raise ValueError.
Proof.
  unfold read_launch, not_a_float.
  intros [[E | E] | [[E | E] | [E | E]]]; rewrite E;
    destruct (input_speed f); simpl; try reflexivity;
    destruct (input_angle f); simpl; reflexivity.
Qed.

(** X11.  A launch field that is empty or holds text [float()] rejects
    gets the "Invalid Input" warning, and the window is left as it was. *)
Theorem on_simulate_rejects_text (w : window) (f : form) :
  not_a_float (input_speed f) \/ not_a_float (input_angle f)
  \/ not_a_float (input_height f) ->
  on_simulate w f = (w, Warning "Invalid Input").
Proof.
  intros H. unfold on_simulate. now rewrite (read_launch_text f H).
Qed.

Lemma on_simulate_rejects_text_witness :
  on_simulate initial_window no_speed_form
  = (initial_window, Warning "Invalid Input").
Proof.
  apply (on_simulate_rejects_text initial_window no_speed_form).
  left. left. reflexivity.
Defined.

Lemma read_target_bad (f : form) :
  bad_target (input_target_x f) \/ bad_target (input_target_y f) ->
  exists e, read_target f = Raise e.
Proof.
  unfold read_target, bad_target.
  intros [[E | (r & E & N)] | [E | (r & E & N)]]; rewrite E.
  - eexists. reflexivity.
  - destruct (input_target_y f) as [| | ry]; simpl.
    + rewrite (Rltb_true r 0 N). eexists. reflexivity.
    + eexists. reflexivity.
    + rewrite (Rltb_true r 0 N). eexists. reflexivity.
  - destruct (input_target_x f) as [| | rx]; simpl.
    + eexists. reflexivity.
    + eexists. reflexivity.
    + eexists. reflexivity.
  - destruct (input_target_x f) as [| | rx]; simpl.
    + rewrite (Rltb_true r 0 N). eexists. reflexivity.
    + eexists. reflexivity.
    + destruct (Rltb rx 0); [eexists; reflexivity|].
      rewrite (Rltb_true r 0 N). eexists. reflexivity.
Qed.

(** X12.  With a valid launch, a target field that holds rejected text or
    a negative number gets the "Invalid Target" warning: no trajectory is
    built, the stored object and labels stay as they were, and the stored
    target is cleared. *)
Theorem on_simulate_rejects_target (w : window) (f : form) (v a h : R) :
  input_speed f = Number v ->
  input_angle f = Number a ->
  input_height f = Number h ->
  valid_launch v a h ->
  bad_target (input_target_x f) \/ bad_target (input_target_y f) ->
  on_simulate w f =
  ({| physics := physics w; target_x := None; target_y := None;
      lbl_target := lbl_target w; lbl_info := lbl_info w |},
   Warning "Invalid Target").
Proof.
  intros Hv Ha Hh V Bad.
  pose proof (read_launch_numbers f v a h Hv Ha Hh) as L.
  rewrite launch_check_accepts in L by assumption.
  destruct (read_target_bad f Bad) as [e T].
  unfold on_simulate. now rewrite L, T.
Qed.

Lemma on_simulate_rejects_target_witness :
  on_simulate initial_window negative_target_form
  = (initial_window, Warning "Invalid Target").
Proof.
  apply (on_simulate_rejects_target initial_window negative_target_form
           30 45 0 eq_refl eq_refl eq_refl valid_30_45_0).
  right. right. exists (-1). split; [reflexivity | lra].
Defined.

(** The window after a run that reached the plot call. *)
Lemma on_simulate_after_build (w : window) (f : form) (v a h : R)
  (tx ty : option R) (p : ProjectilePhysics) :
  read_launch f = Ok (v, a, h) ->
  read_target f = Ok (tx, ty) ->
  ProjectilePhysics_init v a h = Ok p ->
  on_simulate w f =
  match query_target p tx ty with
  | Raise e =>
      ({| physics := Some p; target_x := tx; target_y := ty;
          lbl_target := lbl_target w; lbl_info := lbl_info w |},
       Uncaught e)
  | Ok (label, hit, closest) =>
      ({| physics := Some p; target_x := tx; target_y := ty;
          lbl_target := label;
          lbl_info := Some (t_flight p, max_height p, range p) |},
       Plotted hit closest)
  end.
Proof.
  intros L T P. unfold on_simulate. rewrite L, T, P. reflexivity.
Qed.

Lemma read_target_numbers (f : form) (x y : R) :
  input_target_x f = Number x -> input_target_y f = Number y ->
  0 <= x -> 0 <= y ->
  read_target f = Ok (Some x, Some y).
Proof.
  intros Ex Ey Hx Hy. unfold read_target. rewrite Ex, Ey. simpl.
  now rewrite !Rltb_false by assumption.
Qed.


Lemma get_closest_point_to_total (v a h : R) (p : ProjectilePhysics)
  (x y : R) :
  built v a h p ->
  exists dist cx cy tm, get_closest_point_to p x y = Ok (dist, cx, cy, tm).
Proof.
  intros B. destruct (built_lengths _ _ _ _ B) as [Lx Ly].
  assert (L : List.length (x_points p) = List.length (y_points p))
    by congruence.
  pose proof (length_distances_to p x y L) as Ld. rewrite Lx in Ld.
  destruct (np_argmin_least (distances_to p x y)) as (idx & A & _).
  { intros E. rewrite E in Ld. discriminate. }
  unfold get_closest_point_to. rewrite A. unfold bind.
  eexists _, _, _, _. reflexivity.
Qed.

(** X13.  A valid launch for which the constructor returns an object, with
    both target coordinates given, reaches the plot in exactly one of two
    ways: a hit, with the "HIT" label and no closest point; or a miss, with
    the closest sample of [get_closest_point_to] both in the label and
    passed to the plot.  Either way the results panel shows the new flight
    time, peak and range. *)
Theorem on_simulate_both_coordinates (w : window) (f : form)
  (v a h x y : R) (p : ProjectilePhysics) :
  input_speed f = Number v ->
  input_angle f = Number a ->
  input_height f = Number h ->
  valid_launch v a h ->
  input_target_x f = Number x ->
  input_target_y f = Number y ->
  0 <= x -> 0 <= y ->
  ProjectilePhysics_init v a h = Ok p ->
  (exists d,
      is_target_reachable p x y = Ok (true, Some d) /\
      on_simulate w f =
      ({| physics := Some p; target_x := Some x; target_y := Some y;
          lbl_target := LabelHit x y;
          lbl_info := Some (t_flight p, max_height p, range p) |},
       Plotted true None))
  \/ (exists dist cx cy tm,
         is_target_reachable p x y = Ok (false, None) /\
         get_closest_point_to p x y = Ok (dist, cx, cy, tm) /\
         on_simulate w f =
         ({| physics := Some p; target_x := Some x; target_y := Some y;
             lbl_target := LabelClosest cx cy dist;
             lbl_info := Some (t_flight p, max_height p, range p) |},
          Plotted false (Some (dist, cx, cy, tm)))).
Proof.
  intros Hv Ha Hh V Ex Ey Hx Hy Hp.
  pose proof (read_launch_numbers f v a h Hv Ha Hh) as L.
  rewrite launch_check_accepts in L by assumption.
  pose proof (read_target_numbers f x y Ex Ey Hx Hy) as T.
  rewrite (on_simulate_after_build w f v a h _ _ p L T Hp).
  unfold query_target.
  destruct (get_times_for_y_total p y) as [times Ts].
  assert (R : is_target_reachable p x y = Ok (first_hit p x y times)).
  { unfold is_target_reachable. now rewrite Ts. }
  rewrite R. unfold bind at 1.
  destruct (first_hit_cases p x y times)
    as [(before & ti & after & _ & _ & _ & F) | [_ F]]; rewrite F.
  - left. exists (hit_details p y ti). split; reflexivity.
  - right.
    destruct (get_closest_point_to_total v a h p x y (init_built _ _ _ _ Hp))
      as (dist & cx & cy & tm & C).
    rewrite C. unfold bind, fst.
    exists dist, cx, cy, tm. repeat split.
Qed.

Lemma on_simulate_both_coordinates_witness :
  exists p hit closest,
    ProjectilePhysics_init 30 45 0 = Ok p /\
    snd (on_simulate initial_window both_target_form) = Plotted hit closest.
Proof.
  assert (H10 : 0 <= 10) by lra. assert (H5 : 0 <= 5) by lra.
  destruct (init_succeeds 30 45 0) as [p Hp]; [lra | lra |].
  destruct (on_simulate_both_coordinates initial_window both_target_form
              30 45 0 10 5 p eq_refl eq_refl eq_refl valid_30_45_0
              eq_refl eq_refl H10 H5 Hp)
    as [(d & _ & S) | (dist & cx & cy & tm & _ & _ & S)].
  - exists p, true, None. split; [exact Hp|]. now rewrite S.
  - exists p, false, (Some (dist, cx, cy, tm)).
    split; [exact Hp|]. now rewrite S.
Defined.



(** X15.  Starting from a fresh window, "Save Graph" after one "Simulate":
    if the simulation ended in a warning box, saving refuses with "Nothing
    to Save" whatever file name is chosen; if it reached the plot, a
    chosen file name is written and the empty name (a cancelled dialog)
    does nothing. *)
Theorem save_after_simulate (f : form) (chosen : string) :
  (exists title,
      snd (on_simulate initial_window f) = Warning title /\
      on_save_graph (fst (on_simulate initial_window f)) chosen
      = NothingToSave)
  \/ (exists hit closest,
         snd (on_simulate initial_window f) = Plotted hit closest /\
         on_save_graph (fst (on_simulate initial_window f)) chosen
         = if String.eqb chosen "" then Cancelled else SavedTo chosen)
  \/ (exists e, snd (on_simulate initial_window f) = Uncaught e).
Proof.
  unfold on_simulate.
  destruct (read_launch f) as [[[v a] h] | e] eqn:L.
  - destruct (read_target f) as [[tx ty] | e] eqn:T.
    + destruct (ProjectilePhysics_init v a h) as [p | e];
        [| right; right; eexists; reflexivity].
      destruct (query_target p tx ty) as [[[label hit] closest] | e].
      * right. left. exists hit, closest. split; reflexivity.
      * right. right. eexists. reflexivity.
    + left. eexists. split; reflexivity.
  - rewrite (read_launch_raises f e L).
    left. eexists. split; reflexivity.
Qed.

(** ** The time of the closest sample, on doubles *)

(** The time [get_closest_point_to] computes for the last sample can lie
    past the end of the flight: straight up at 8 m/s from 5 m,
    [499 * t_flight / 499] is the next double after [t_flight], while the
    sample itself was taken at [t_flight]. *)
Lemma index_time_past_flight :
  exists p,
    Binary64.calculate 8 90 5 Binary64.cos_90 Binary64.sin_90 = Ok p /\
    Binary64.index_time p 499 = next_up (Binary64.t_flight p) /\
    PrimFloat.ltb (Binary64.t_flight p) (Binary64.index_time p 499) = true.
Proof.
  eexists. split; [vm_compute; reflexivity|].
  split; vm_compute; reflexivity.
Qed.
